(** * evaluate.py: the LangSmith evaluation driver

    A shallow embedding of [src/evaluate.py].  The script is a straight
    line of statements executed at import time: it writes and reads the
    process environment, constructs a traced chat client, provisions a
    dataset with two examples, hands two callbacks ([target] and
    [correctness_evaluator]) to the platform's [evaluate] operation and
    prints the summary.

    The embedding threads an explicit [world] (the process environment,
    the log of calls into the third-party libraries, and the text
    written to standard output) through a state-and-exception monad.
    The third-party libraries are a record of oracles ([externals]), so
    every statement proved below holds for every behaviour of the
    libraries, in particular for every mock.

    Outside the model: the [import] statements of lines 1 to 5, what the
    libraries themselves write to the console, and the threads in which
    the platform runs the callbacks (a [plan] runs them one after the
    other; [target] and [correctness_evaluator] share no state of their
    own). *)

From Stdlib Require Import ZArith.
From stdpp Require Import gmap strings list fin_maps.

Set Warnings "-register-all".

#[local] Open Scope string_scope.
#[local] Open Scope Z_scope.

(** ** Python values *)

(** The values that travel through the script's dictionaries. *)
Inductive value :=
| VNone
| VStr (s : string)
| VInt (z : Z)
| VList (l : list value)
| VDict (d : gmap string value).

(** A Python [dict] with string keys. *)
Abbreviation dict := (gmap string value).

(** The exceptions that can reach the top level.  [ValueError] is what
    the credential checks raise, [KeyError] is a failed subscript on a
    dict or on [os.environ], [TypeError] is [os.environ[k] = None],
    [IndexError] a failed list subscript and [External] is anything
    raised inside a third-party call. *)
Inductive exn :=
| ValueError (msg : string)
| KeyError (key : string)
| TypeError
| IndexError
| External (what : string).

(** The result of a call: a value or a raised exception. *)
Inductive outcome (A : Type) :=
| Returns (a : A)
| Raises (e : exn).
Arguments Returns {A} a.
Arguments Raises {A} e.

(** Third-party objects are opaque; an [obj] is an object identity. *)
Definition obj := nat.

(** [langsmith.schemas.Dataset], of which the script reads [id]. *)
Record Dataset := { Dataset_id : string }.

(** The chat model's reply, of which the script reads [content]. *)
Record Response := { content : value }.

(** The two functions of the script that are passed as arguments. *)
Inductive funref :=
| Ref_target
| Ref_correctness_evaluator.

(** ** Calls into the third-party libraries *)

(** One constructor per call site of the script, with the arguments as
    the call site passes them. *)
Inductive call :=
| CallChatGoogleGenerativeAI (api_key model : string)
| CallWrap (chat : obj)
| CallInvoke (c : obj) (messages : list dict)
| CallClient
| CallCreateDataset (c : obj) (dataset_name description : string)
| CallCreateExample (c : obj) (dataset_id : string) (inputs outputs : value)
| CallCreateLlmAsJudge (prompt model feedback_key : string)
| CallGrader (g : obj) (inputs outputs reference_outputs : dict)
| CallEvaluate (c : obj) (tgt : funref) (data : string)
    (evaluators : list funref) (experiment_prefix : string)
    (max_concurrency : Z).

(** What the platform's [evaluate] does with the callbacks it is given:
    it may run the target on some inputs, run the [n]-th evaluator on
    some triple, look at what came back, and eventually finish.  The
    callbacks' exceptions reach the platform, not the script. *)
Inductive plan :=
| Finish (r : outcome obj)
| RunTarget (inputs : dict) (k : outcome dict -> plan)
| RunEvaluator (n : nat) (inputs outputs reference_outputs : dict)
    (k : outcome value -> plan).

(** The third-party libraries.  Each oracle sees the calls made so far,
    so that a mock may answer differently from one call to the next. *)
Record externals := {
  CORRECTNESS_PROMPT : string;
  ext_ChatGoogleGenerativeAI : list call -> string -> string -> outcome obj;
  ext_wrap : list call -> obj -> outcome obj;
  ext_invoke : list call -> obj -> list dict -> outcome Response;
  ext_Client : list call -> outcome obj;
  ext_create_dataset : list call -> obj -> string -> string -> outcome Dataset;
  ext_create_example :
    list call -> obj -> string -> value -> value -> outcome unit;
  ext_create_llm_as_judge :
    list call -> string -> string -> string -> outcome obj;
  ext_grader : list call -> obj -> dict -> dict -> dict -> outcome value;
  ext_evaluate : list call -> obj -> string -> string -> Z -> plan;
  ext_str : obj -> string
}.

(** ** The world and the monad *)

Record world := {
  environ : gmap string string;
  calls : list call;
  stdout : string
}.

(** The world with another environment, with more calls logged, with
    more text on standard output. *)
Definition set_environ (env : gmap string string) (w : world) : world :=
  {| environ := env; calls := calls w; stdout := stdout w |}.

Definition logged (l : list call) (w : world) : world :=
  {| environ := environ w; calls := calls w ++ l; stdout := stdout w |}.

Definition written (text : string) (w : world) : world :=
  {| environ := environ w; calls := calls w; stdout := stdout w ++ text |}.

Definition M (A : Type) : Type := world -> outcome A * world.

Definition ret {A} (a : A) : M A := fun w => (Returns a, w).

Definition raise {A} (e : exn) : M A := fun w => (Raises e, w).

Definition bind {A B} (m : M A) (f : A -> M B) : M B :=
  fun w =>
    match m w with
    | (Returns a, w') => f a w'
    | (Raises e, w') => (Raises e, w')
    end.

Notation "x <- m ;; k" := (bind m (fun x => k))
  (at level 100, m at next level, right associativity).
Notation "m ;;; k" := (bind m (fun _ => k))
  (at level 100, right associativity).

(** [os.getenv(k)]: the value, or [None]. *)
Definition getenv (k : string) : M (option string) :=
  fun w => (Returns (environ w !! k), w).

(** [os.environ[k]]: the value, or [KeyError]. *)
Definition environ_getitem (k : string) : M string :=
  fun w =>
    match environ w !! k with
    | Some v => (Returns v, w)
    | None => (Raises (KeyError k), w)
    end.

(** [os.environ[k] = v] for a string [v]. *)
Definition environ_setitem (k v : string) : M unit :=
  fun w => (Returns tt, set_environ (<[k:=v]> (environ w)) w).

(** [os.environ[k] = e] where [e] is the result of [os.getenv]: storing
    [None] raises [TypeError]. *)
Definition environ_setitem_opt (k : string) (v : option string) : M unit :=
  match v with
  | Some s => environ_setitem k s
  | None => raise TypeError
  end.

(** Truthiness of what [os.getenv] returns: [None] and the empty string
    are false, every other string is true. *)
Definition truthy (v : option string) : bool :=
  match v with
  | Some s => negb (String.eqb s "")
  | None => false
  end.

(** A call into a library: the call is logged, and the oracle answers
    from the calls made before it. *)
Definition perform {A} (c : call) (answer : list call -> outcome A) : M A :=
  fun w => (answer (calls w), logged [c] w).

(** [d[k]] on a dict: the value, or [KeyError]. *)
Definition getitem (d : dict) (k : string) : M value :=
  match d !! k with
  | Some v => ret v
  | None => raise (KeyError k)
  end.

(** The line terminator that [print] writes. *)
Definition newline : string := String (Ascii.ascii_of_nat 10) "".

(** [print(a, b)]: the arguments' texts separated by one space,
    followed by a newline. *)
Definition print2 (a b : string) : M unit :=
  fun w => (Returns tt, written (a ++ " " ++ b ++ newline) w).

(** [for x in l: body(x)]. *)
Fixpoint for_each {A} (l : list A) (body : A -> M unit) : M unit :=
  match l with
  | [] => ret tt
  | x :: rest => body x ;;; for_each rest body
  end.

(** The platform running its plan with the callbacks it was given. *)
Fixpoint run_plan (tgt : dict -> M dict)
    (evaluators : list (dict -> dict -> dict -> M value))
    (p : plan) : M obj :=
  match p with
  | Finish r => fun w => (r, w)
  | RunTarget inputs k =>
      fun w =>
        let (o, w') := tgt inputs w in
        run_plan tgt evaluators (k o) w'
  | RunEvaluator n inputs outputs reference_outputs k =>
      fun w =>
        match nth_error evaluators n with
        | Some ev =>
            let (o, w') := ev inputs outputs reference_outputs w in
            run_plan tgt evaluators (k o) w'
        | None => run_plan tgt evaluators (k (Raises IndexError)) w
        end
  end.

(** ** The script *)

Section Script.

Variable X : externals.

(** *** The library calls, as the script writes them *)

Definition ChatGoogleGenerativeAI (api_key model : string) : M obj :=
  perform (CallChatGoogleGenerativeAI api_key model)
    (fun h => ext_ChatGoogleGenerativeAI X h api_key model).

Definition wrap_google_generative_ai (chat : obj) : M obj :=
  perform (CallWrap chat) (fun h => ext_wrap X h chat).

Definition invoke (c : obj) (messages : list dict) : M Response :=
  perform (CallInvoke c messages) (fun h => ext_invoke X h c messages).

Definition Client : M obj :=
  perform CallClient (fun h => ext_Client X h).

Definition create_dataset (c : obj) (dataset_name description : string)
  : M Dataset :=
  perform (CallCreateDataset c dataset_name description)
    (fun h => ext_create_dataset X h c dataset_name description).

Definition create_example (c : obj) (dataset_id : string)
    (inputs outputs : value) : M unit :=
  perform (CallCreateExample c dataset_id inputs outputs)
    (fun h => ext_create_example X h c dataset_id inputs outputs).

Definition create_llm_as_judge (prompt model feedback_key : string)
  : M obj :=
  perform (CallCreateLlmAsJudge prompt model feedback_key)
    (fun h => ext_create_llm_as_judge X h prompt model feedback_key).

(** Calling the grader that [create_llm_as_judge] returned. *)
Definition call_grader (g : obj) (inputs outputs reference_outputs : dict)
  : M value :=
  perform (CallGrader g inputs outputs reference_outputs)
    (fun h => ext_grader X h g inputs outputs reference_outputs).

(** [client.evaluate(...)]: the call is logged with its arguments, then
    the platform runs its plan with the two callbacks. *)
Definition evaluate (c : obj)
    (tgt_ref : funref) (tgt : dict -> M dict) (data : string)
    (evaluator_refs : list funref)
    (evaluators : list (dict -> dict -> dict -> M value))
    (experiment_prefix : string) (max_concurrency : Z) : M obj :=
  p <- perform
         (CallEvaluate c tgt_ref data evaluator_refs experiment_prefix
            max_concurrency)
         (fun h =>
            Returns (ext_evaluate X h c data experiment_prefix
                       max_concurrency)) ;;
  run_plan tgt evaluators p.

(** *** Lines 8 to 17: the environment bootstrap *)

Definition bootstrap : M unit :=
  environ_setitem "LANGSMITH_TRACING" "true" ;;;
  environ_setitem "LANGSMITH_ENDPOINT" "https://api.smith.langchain.com" ;;;
  k <- getenv "LANGSMITH_API_KEY" ;;
  if negb (truthy k) then
    raise (ValueError
             "Please set the LANGSMITH_API_KEY environment variable")
  else
    v <- getenv "LANGSMITH_API_KEY" ;;
    environ_setitem_opt "LANGSMITH_API_KEY" v ;;;
    g <- getenv "GOOGLE_API_KEY" ;;
    if negb (truthy g) then
      raise (ValueError
               "Please set the GOOGLE_API_KEY environment variable")
    else ret tt.

(** *** Line 20: the traced chat client *)

Definition make_openai_client : M obj :=
  api_key <- environ_getitem "GOOGLE_API_KEY" ;;
  chat <- ChatGoogleGenerativeAI api_key "gemini-1.5-flash" ;;
  wrap_google_generative_ai chat.

(** *** Lines 24 to 31: the target *)

Definition target (openai_client : obj) (inputs : dict) : M dict :=
  question <- getitem inputs "question" ;;
  response <-
    invoke openai_client
      [ {[ "role" := VStr "system";
           "content" := VStr "Answer the following question accurately" ]};
        {[ "role" := VStr "user"; "content" := question ]} ] ;;
  ret {[ "answer" := content response ]}.

(** *** Lines 38 to 55: the examples and the seeding loop *)

Definition examples : list dict :=
  [ {[ "inputs" :=
         VDict {[ "question" :=
                    VStr "Which country is Mount Kilimanjaro located in?" ]};
       "outputs" :=
         VDict {[ "answer" :=
                    VStr "Mount Kilimanjaro is located in Tanzania." ]} ]};
    {[ "inputs" :=
         VDict {[ "question" := VStr "What is Earth's lowest point?" ]};
       "outputs" :=
         VDict {[ "answer" :=
                    VStr "Earth's lowest point is The Dead Sea." ]} ]} ].

Definition seed (client : obj) (dataset : Dataset) : M unit :=
  for_each examples (fun example =>
    inputs <- getitem example "inputs" ;;
    outputs <- getitem example "outputs" ;;
    create_example client (Dataset_id dataset) inputs outputs).

(** *** Lines 58 to 67: the evaluator *)

Definition correctness_evaluator (inputs outputs reference_outputs : dict)
  : M value :=
  evaluator <-
    create_llm_as_judge (CORRECTNESS_PROMPT X) "gemini-1.5-flash"
      "correctness" ;;
  eval_result <- call_grader evaluator inputs outputs reference_outputs ;;
  ret eval_result.

(** *** The whole module, top to bottom *)

Definition script : M unit :=
  bootstrap ;;;
  openai_client <- make_openai_client ;;
  client <- Client ;;
  dataset <-
    create_dataset client "ds-somber-trailer-42"
      "A sample dataset in LangSmith." ;;
  seed client dataset ;;;
  experiment_results <-
    evaluate client Ref_target (target openai_client)
      "ds-somber-trailer-42"
      [Ref_correctness_evaluator] [correctness_evaluator]
      "experiment-quickstart-excellent-curiosity-99" 2 ;;
  print2 "Evaluation completed. Results:" (ext_str X experiment_results).

End Script.

(** A fresh process: the given environment, no call made, nothing
    printed. *)
Definition fresh (env : gmap string string) : world :=
  {| environ := env; calls := []; stdout := "" |}.

(** Running the script in a fresh process. *)
Definition run (X : externals) (env : gmap string string)
  : outcome unit * world :=
  script X (fresh env).

(** ** Vocabulary of the statements *)

(** The two messages of the credential checks. *)
Definition langsmith_message : string :=
  "Please set the LANGSMITH_API_KEY environment variable".

Definition google_message : string :=
  "Please set the GOOGLE_API_KEY environment variable".

(** The environment after lines 8 and 9. *)
Definition traced (env : gmap string string) : gmap string string :=
  <["LANGSMITH_ENDPOINT" := "https://api.smith.langchain.com"]>
    (<["LANGSMITH_TRACING" := "true"]> env).

(** Both credentials are bound to non-empty strings. *)
Definition credentials_set (env : gmap string string) : bool :=
  truthy (env !! "LANGSMITH_API_KEY") && truthy (env !! "GOOGLE_API_KEY").

Definition is_evaluate (c : call) : bool :=
  match c with
  | CallEvaluate _ _ _ _ _ _ => true
  | _ => false
  end.

Definition is_create_example (c : call) : bool :=
  match c with
  | CallCreateExample _ _ _ _ => true
  | _ => false
  end.

Definition is_invoke (c : call) : bool :=
  match c with
  | CallInvoke _ _ => true
  | _ => false
  end.

(** The calls that the two callbacks make. *)
Definition callback_call (c : call) : bool :=
  match c with
  | CallInvoke _ _ | CallCreateLlmAsJudge _ _ _ | CallGrader _ _ _ _ => true
  | _ => false
  end.

(** The two fixtures, as the arguments of [create_example]. *)
Definition kilimanjaro_inputs : value :=
  VDict {[ "question" :=
             VStr "Which country is Mount Kilimanjaro located in?" ]}.

Definition kilimanjaro_outputs : value :=
  VDict {[ "answer" := VStr "Mount Kilimanjaro is located in Tanzania." ]}.

Definition lowest_point_inputs : value :=
  VDict {[ "question" := VStr "What is Earth's lowest point?" ]}.

Definition lowest_point_outputs : value :=
  VDict {[ "answer" := VStr "Earth's lowest point is The Dead Sea." ]}.

(** The two [create_example] calls of a complete seeding. *)
Definition seeding_calls (client : obj) (dataset : Dataset) : list call :=
  [ CallCreateExample client (Dataset_id dataset)
      kilimanjaro_inputs kilimanjaro_outputs;
    CallCreateExample client (Dataset_id dataset)
      lowest_point_inputs lowest_point_outputs ].

(** A plan that finishes with a result whatever the callbacks do. *)
Inductive always_returns : plan -> Prop :=
| ar_finish (r : obj) : always_returns (Finish (Returns r))
| ar_target inputs k :
    (forall o, always_returns (k o)) ->
    always_returns (RunTarget inputs k)
| ar_evaluator n inputs outputs reference_outputs k :
    (forall o, always_returns (k o)) ->
    always_returns (RunEvaluator n inputs outputs reference_outputs k).

(** Every call into the libraries succeeds. *)
Record all_calls_succeed (X : externals) : Prop := {
  chat_ok : forall h k m, exists r, ext_ChatGoogleGenerativeAI X h k m = Returns r;
  wrap_ok : forall h c, exists r, ext_wrap X h c = Returns r;
  invoke_ok : forall h c ms, exists r, ext_invoke X h c ms = Returns r;
  client_ok : forall h, exists r, ext_Client X h = Returns r;
  dataset_ok : forall h c n d, exists r, ext_create_dataset X h c n d = Returns r;
  example_ok : forall h c i a b, ext_create_example X h c i a b = Returns tt;
  judge_ok : forall h p m f, exists r, ext_create_llm_as_judge X h p m f = Returns r;
  grader_ok : forall h g i o r, exists v, ext_grader X h g i o r = Returns v;
  evaluate_ok : forall h c d p m, always_returns (ext_evaluate X h c d p m)
}.

(** A credential that the checks reject: not bound, or bound to the
    empty string. *)
Definition unset_or_empty (env : gmap string string) (k : string) : Prop :=
  env !! k = None \/ env !! k = Some "".

(** The message list that [target] sends for a question. *)
Definition chat_messages (question : value) : list dict :=
  [ {[ "role" := VStr "system";
       "content" := VStr "Answer the following question accurately" ]};
    {[ "role" := VStr "user"; "content" := question ]} ].

(** The [data] and [max_concurrency] arguments of the [evaluate] calls
    of a log, in order. *)
Definition evaluate_args (l : list call) : list (string * Z) :=
  omap (fun c =>
          match c with
          | CallEvaluate _ _ data _ _ max_concurrency =>
              Some (data, max_concurrency)
          | _ => None
          end) l.

(** The [dataset_name] arguments of the [create_dataset] calls of a
    log, in order. *)
Definition dataset_names (l : list call) : list string :=
  omap (fun c =>
          match c with
          | CallCreateDataset _ dataset_name _ => Some dataset_name
          | _ => None
          end) l.

(** The log holds one dataset creation and one [evaluate] call, the
    latter with the former's name as [data] and with
    [max_concurrency = 2]. *)
Definition single_evaluate (log : list call) : Prop :=
  exists name,
    dataset_names log = [name] /\ evaluate_args log = [(name, 2)].

(** A computation that touches the world only by logging calls that
    the callbacks make. *)
Definition callback_only {A} (m : M A) : Prop :=
  forall w, exists l,
    snd (m w) = logged l w /\ forallb callback_call l = true.

(** Lines 8 to 76: the module up to the assignment of
    [experiment_results], that is, [script] without the final print. *)
Definition experiment_results (X : externals) : M obj :=
  bootstrap ;;;
  openai_client <- make_openai_client X ;;
  client <- Client X ;;
  dataset <-
    create_dataset X client "ds-somber-trailer-42"
      "A sample dataset in LangSmith." ;;
  seed X client dataset ;;;
  evaluate X client Ref_target (target X openai_client)
    "ds-somber-trailer-42"
    [Ref_correctness_evaluator] [correctness_evaluator X]
    "experiment-quickstart-excellent-curiosity-99" 2.

(** The calls of the module's own statements when none of them fails,
    in program order. *)
Definition setup_calls (api_key : string) (chat client : obj)
    (dataset : Dataset) : list call :=
  [ CallChatGoogleGenerativeAI api_key "gemini-1.5-flash";
    CallWrap chat;
    CallClient;
    CallCreateDataset client "ds-somber-trailer-42"
      "A sample dataset in LangSmith." ]
  ++ seeding_calls client dataset
  ++ [ CallEvaluate client Ref_target "ds-somber-trailer-42"
         [Ref_correctness_evaluator]
         "experiment-quickstart-excellent-curiosity-99" 2 ].

(** What a run with both credentials looks like when it stops: the
    environment carries the tracing settings, nothing is printed yet,
    and the log is the module's own calls up to the failing one, or all
    of them followed by the callbacks' calls. *)
Definition well_shaped (env : gmap string string)
    (r : outcome obj * world) : Prop :=
  exists api_key chat client dataset cb,
    env !! "GOOGLE_API_KEY" = Some api_key /\
    forallb callback_call cb = true /\
    environ (snd r) = traced env /\
    stdout (snd r) = "" /\
    match fst r with
    | Returns _ =>
        calls (snd r) = (setup_calls api_key chat client dataset ++ cb)%list
    | Raises _ =>
        calls (snd r) `prefix_of` setup_calls api_key chat client dataset \/
        calls (snd r) = (setup_calls api_key chat client dataset ++ cb)%list
    end.

(** ** Sample processes *)

Module Sample.

(** A platform that runs the target on one question, grades the
    answer against a reference, and returns the summary object 7. *)
Definition one_example_plan : plan :=
  RunTarget {[ "question" := VStr "What is Earth's lowest point?" ]}
    (fun o =>
       match o with
       | Returns outputs =>
           RunEvaluator 0
             {[ "question" := VStr "What is Earth's lowest point?" ]}
             outputs
             {[ "answer" := VStr "Earth's lowest point is The Dead Sea." ]}
             (fun _ => Finish (Returns 7%nat))
       | Raises _ => Finish (Returns 7%nat)
       end).

(** Mocks that all succeed. *)
Definition mocks : externals := {|
  CORRECTNESS_PROMPT := "Grade the answer.";
  ext_ChatGoogleGenerativeAI := fun _ _ _ => Returns 1%nat;
  ext_wrap := fun _ _ => Returns 2%nat;
  ext_invoke := fun _ _ _ => Returns {| content := VStr "The Dead Sea." |};
  ext_Client := fun _ => Returns 3%nat;
  ext_create_dataset := fun _ _ _ _ => Returns {| Dataset_id := "d-1" |};
  ext_create_example := fun _ _ _ _ _ => Returns tt;
  ext_create_llm_as_judge := fun _ _ _ _ => Returns 4%nat;
  ext_grader := fun _ _ _ _ _ => Returns (VInt 1);
  ext_evaluate := fun _ _ _ _ _ => one_example_plan;
  ext_str := fun _ => "<ExperimentResults quickstart>"
|}.

(** Both credentials bound. *)
Definition env_ok : gmap string string :=
  {[ "LANGSMITH_API_KEY" := "ls-key"; "GOOGLE_API_KEY" := "g-key" ]}.

(** The LangSmith key bound to the empty string. *)
Definition env_blank : gmap string string :=
  {[ "LANGSMITH_API_KEY" := ""; "GOOGLE_API_KEY" := "g-key" ]}.

(** Only the LangSmith key bound. *)
Definition env_no_google : gmap string string :=
  {[ "LANGSMITH_API_KEY" := "ls-key" ]}.

(** The Google key bound to the empty string. *)
Definition env_blank_google : gmap string string :=
  {[ "LANGSMITH_API_KEY" := "ls-key"; "GOOGLE_API_KEY" := "" ]}.

(** The tracing settings already in place, no credential. *)
Definition env_traced : gmap string string :=
  {[ "LANGSMITH_TRACING" := "true";
     "LANGSMITH_ENDPOINT" := "https://api.smith.langchain.com" ]}.

End Sample.

(** ** Vocabulary of the further properties *)

(** The model name of line 20 and the dataset name and description of
    lines 35 to 37. *)
Definition chat_model : string := "gemini-1.5-flash".

Definition dataset_name : string := "ds-somber-trailer-42".

Definition dataset_description : string := "A sample dataset in LangSmith.".

(** The [create_llm_as_judge] call of line 59. *)
Definition judge_call (X : externals) : call :=
  CallCreateLlmAsJudge (CORRECTNESS_PROMPT X) "gemini-1.5-flash"
    "correctness".

Definition is_grader (c : call) : bool :=
  match c with
  | CallGrader _ _ _ _ => true
  | _ => false
  end.

(** Every grader call of the log comes right after a
    [create_llm_as_judge] call with the script's three arguments, and
    the grader called is the object which that call returned. *)
Definition graders_fresh (X : externals) (log : list call) : Prop :=
  forall n g i o r,
    log !! n = Some (CallGrader g i o r) ->
    exists m,
      n = S m /\
      log !! m = Some (judge_call X) /\
      ext_create_llm_as_judge X (take m log) (CORRECTNESS_PROMPT X)
        "gemini-1.5-flash" "correctness" = Returns g.

(** What has been established by the time the module has gone through
    its first [stage] statements that call a library (in order: the
    chat constructor, the wrapper, [Client()], [create_dataset]), for the
    Google key [g] and the objects [chat], [oc] (the traced client),
    [client] and [dataset] that these calls returned. *)
Definition established (X : externals) (env : gmap string string)
    (g : string) (chat oc client : obj) (dataset : Dataset)
    (stage : nat) : Prop :=
  let h1 := [CallChatGoogleGenerativeAI g chat_model] in
  let h2 := (h1 ++ [CallWrap chat])%list in
  let h3 := (h2 ++ [CallClient])%list in
  (env !! "GOOGLE_API_KEY" = Some g /\ g <> "") /\
  (1 <= stage ->
   ext_ChatGoogleGenerativeAI X [] g chat_model = Returns chat)%nat /\
  (2 <= stage -> ext_wrap X h1 chat = Returns oc)%nat /\
  (3 <= stage -> ext_Client X h2 = Returns client)%nat /\
  (4 <= stage ->
   ext_create_dataset X h3 client dataset_name dataset_description
   = Returns dataset)%nat.

(** Where the arguments of a logged call come from. *)
Definition call_ok (X : externals) (env : gmap string string)
    (g : string) (chat oc client : obj) (dataset : Dataset)
    (c : call) : Prop :=
  let reached := established X env g chat oc client dataset in
  match c with
  | CallChatGoogleGenerativeAI k m =>
      k = g /\ m = chat_model /\ reached 0%nat
  | CallWrap ch => ch = chat /\ reached 1%nat
  | CallClient => reached 2%nat
  | CallCreateDataset c' n d =>
      c' = client /\ n = dataset_name /\ d = dataset_description /\
      reached 3%nat
  | CallCreateExample c' i _ _ =>
      c' = client /\ i = Dataset_id dataset /\ reached 4%nat
  | CallEvaluate c' t _ evs p _ =>
      c' = client /\ t = Ref_target /\ evs = [Ref_correctness_evaluator] /\
      p = "experiment-quickstart-excellent-curiosity-99" /\ reached 4%nat
  | CallInvoke c' ms =>
      c' = oc /\ (exists q, ms = chat_messages q) /\ reached 4%nat
  | CallCreateLlmAsJudge _ _ _ | CallGrader _ _ _ _ => True
  end.

(** The invariant that the two callbacks keep, once the dataset has
    been created. *)
Definition facts_hold (X : externals) (env : gmap string string)
    (g : string) (chat oc client : obj) (dataset : Dataset)
    (w : world) : Prop :=
  Forall (call_ok X env g chat oc client dataset) (calls w) /\
  graders_fresh X (calls w).

(** What holds of the log of every run. *)
Definition log_facts (X : externals) (env : gmap string string)
    (log : list call) : Prop :=
  (exists g chat oc client dataset,
     Forall (call_ok X env g chat oc client dataset) log) /\
  graders_fresh X log.


(** ** Libraries that fail *)

Module Faulty.

(** The dataset service refuses every example. *)
Definition no_examples : externals := {|
  CORRECTNESS_PROMPT := CORRECTNESS_PROMPT Sample.mocks;
  ext_ChatGoogleGenerativeAI := ext_ChatGoogleGenerativeAI Sample.mocks;
  ext_wrap := ext_wrap Sample.mocks;
  ext_invoke := ext_invoke Sample.mocks;
  ext_Client := ext_Client Sample.mocks;
  ext_create_dataset := ext_create_dataset Sample.mocks;
  ext_create_example := fun _ _ _ _ _ => Raises (External "503");
  ext_create_llm_as_judge := ext_create_llm_as_judge Sample.mocks;
  ext_grader := ext_grader Sample.mocks;
  ext_evaluate := ext_evaluate Sample.mocks;
  ext_str := ext_str Sample.mocks
|}.

(** The dataset service accepts one example and refuses the next: it
    answers from the calls it has seen. *)
Definition one_example_only : externals := {|
  CORRECTNESS_PROMPT := CORRECTNESS_PROMPT Sample.mocks;
  ext_ChatGoogleGenerativeAI := ext_ChatGoogleGenerativeAI Sample.mocks;
  ext_wrap := ext_wrap Sample.mocks;
  ext_invoke := ext_invoke Sample.mocks;
  ext_Client := ext_Client Sample.mocks;
  ext_create_dataset := ext_create_dataset Sample.mocks;
  ext_create_example := fun h _ _ _ _ =>
    if existsb is_create_example h then Raises (External "quota")
    else Returns tt;
  ext_create_llm_as_judge := ext_create_llm_as_judge Sample.mocks;
  ext_grader := ext_grader Sample.mocks;
  ext_evaluate := ext_evaluate Sample.mocks;
  ext_str := ext_str Sample.mocks
|}.

End Faulty.

(** * Properties *)

(** ** The world *)

Lemma logged_nil w : logged [] w = w.
Proof. destruct w; unfold logged; simpl. by rewrite app_nil_r. Qed.

Lemma logged_logged l1 l2 w : logged l2 (logged l1 w) = logged (l1 ++ l2) w.
Proof. unfold logged; simpl. by rewrite app_assoc. Qed.

Lemma set_environ_twice e1 e2 w :
  set_environ e2 (set_environ e1 w) = set_environ e2 w.
Proof. reflexivity. Qed.

Lemma getitem_Some (d : dict) k v w :
  d !! k = Some v -> getitem d k w = (Returns v, w).
Proof. unfold getitem. by intros ->. Qed.

Lemma prefix_is_take {A} (l l' : list A) :
  l `prefix_of` l' -> exists n, l = take n l'.
Proof. intros [k ->]. exists (length l). by rewrite take_app_length. Qed.

(** ** Truthiness and the credentials *)

Lemma truthy_Some v : truthy v = true -> exists s, v = Some s /\ s <> "".
Proof.
  destruct v as [s|]; simpl; [|done].
  intros H. exists s. split; [done|]. intros ->. done.
Qed.

Lemma truthy_false_iff v : truthy v = false <-> v = None \/ v = Some "".
Proof.
  destruct v as [s|]; simpl.
  - destruct (String.eqb_spec s "") as [->|Hs]; simpl.
    + split; [by right | done].
    + split; [done | intros [H|H]; congruence].
  - split; [by left | done].
Qed.

Lemma credentials_unset_iff env :
  credentials_set env = false <->
  unset_or_empty env "LANGSMITH_API_KEY" \/
  unset_or_empty env "GOOGLE_API_KEY".
Proof.
  unfold credentials_set, unset_or_empty.
  rewrite andb_false_iff, !truthy_false_iff. done.
Qed.

Lemma credentials_set_google env :
  credentials_set env = true -> exists g, env !! "GOOGLE_API_KEY" = Some g.
Proof.
  unfold credentials_set. intros [_ H]%andb_prop.
  destruct (truthy_Some _ H) as (g & -> & _). by exists g.
Qed.

(** ** The bootstrap *)

Lemma traced_lookup_other env k :
  k <> "LANGSMITH_TRACING" -> k <> "LANGSMITH_ENDPOINT" ->
  traced env !! k = env !! k.
Proof.
  intros H1 H2. unfold traced.
  rewrite lookup_insert_ne by done. by rewrite lookup_insert_ne.
Qed.

Lemma traced_tracing env : traced env !! "LANGSMITH_TRACING" = Some "true".
Proof. unfold traced. by rewrite lookup_insert_ne, lookup_insert_eq. Qed.

Lemma traced_endpoint env :
  traced env !! "LANGSMITH_ENDPOINT" = Some "https://api.smith.langchain.com".
Proof. unfold traced. by rewrite lookup_insert_eq. Qed.

Lemma traced_id_iff env :
  traced env = env <->
  env !! "LANGSMITH_TRACING" = Some "true" /\
  env !! "LANGSMITH_ENDPOINT" = Some "https://api.smith.langchain.com".
Proof.
  split.
  - intros E. rewrite <- E at 1 2. by rewrite traced_tracing, traced_endpoint.
  - intros [HT HE]. unfold traced.
    rewrite (insert_id env "LANGSMITH_TRACING") by done.
    by apply insert_id.
Qed.

(** The bootstrap in one equation: the outcome is decided by the
    truthiness of the two credentials, in that order, and the world it
    leaves has the tracing settings written in every case. *)
Lemma bootstrap_eq w :
  bootstrap w =
    (if truthy (environ w !! "LANGSMITH_API_KEY") then
       if truthy (environ w !! "GOOGLE_API_KEY") then Returns tt
       else Raises (ValueError google_message)
     else Raises (ValueError langsmith_message),
     set_environ (traced (environ w)) w).
Proof.
  unfold bootstrap, bind, environ_setitem, getenv; simpl.
  fold (traced (environ w)). rewrite set_environ_twice.
  rewrite (traced_lookup_other _ "LANGSMITH_API_KEY") by done.
  destruct (truthy (environ w !! "LANGSMITH_API_KEY")) eqn:HL; simpl; [|done].
  destruct (truthy_Some _ HL) as (s & Hs & _).
  rewrite (traced_lookup_other _ "LANGSMITH_API_KEY") by done.
  rewrite Hs. simpl.
  unfold environ_setitem; simpl. rewrite set_environ_twice.
  assert (<["LANGSMITH_API_KEY":=s]> (traced (environ w))
          = traced (environ w)) as ->.
  { apply insert_id. by rewrite traced_lookup_other. }
  rewrite traced_lookup_other by done.
  by destruct (truthy (environ w !! "GOOGLE_API_KEY")).
Qed.

Lemma bootstrap_raises_iff env :
  (exists msg, fst (bootstrap (fresh env)) = Raises (ValueError msg)) <->
  credentials_set env = false.
Proof.
  rewrite bootstrap_eq. unfold credentials_set. simpl.
  destruct (truthy (env !! "LANGSMITH_API_KEY")),
    (truthy (env !! "GOOGLE_API_KEY")); simpl; split;
    try done; try (intros [? ?]; done); eauto.
Qed.

(** ** The callbacks *)

Section Callbacks.

Variable X : externals.

Lemma target_callback_only c inputs : callback_only (target X c inputs).
Proof.
  intros w. unfold target, bind, getitem.
  destruct (inputs !! "question") as [q|]; simpl.
  - destruct (ext_invoke X _ _ _); simpl; by eexists [_].
  - exists []. by rewrite logged_nil.
Qed.

Lemma correctness_evaluator_callback_only i o r :
  callback_only (correctness_evaluator X i o r).
Proof.
  intros w. unfold correctness_evaluator, bind; simpl.
  destruct (ext_create_llm_as_judge X _ _ _ _) as [g|e]; simpl.
  - destruct (ext_grader X _ _ _ _ _); simpl; rewrite logged_logged;
      by eexists [_; _].
  - by eexists [_].
Qed.

End Callbacks.

Lemma callback_call_app l1 l2 :
  forallb callback_call l1 = true -> forallb callback_call l2 = true ->
  forallb callback_call (l1 ++ l2) = true.
Proof. intros H1 H2. rewrite forallb_app, H1, H2. done. Qed.

(** Whatever the platform's plan is, running it logs callback calls
    only: by induction on the plan. *)
Lemma run_plan_callback_only tgt evs p :
  (forall i, callback_only (tgt i)) ->
  Forall (fun ev => forall i o r, callback_only (ev i o r)) evs ->
  callback_only (run_plan tgt evs p).
Proof.
  intros Ht He. induction p as [r|i k IH|n i o r k IH]; intros w; simpl.
  - exists []. by rewrite logged_nil.
  - destruct (Ht i w) as (l1 & E1 & F1).
    destruct (tgt i w) as [res w1]; simpl in E1; subst w1.
    destruct (IH res (logged l1 w)) as (l2 & E2 & F2).
    exists (l1 ++ l2)%list. rewrite E2, logged_logged.
    auto using callback_call_app.
  - destruct (nth_error evs n) as [ev|] eqn:En.
    + apply nth_error_In in En.
      rewrite Forall_forall in He.
      assert (Hev : forall i o r, callback_only (ev i o r)).
      { apply He. by apply list_elem_of_In. }
      destruct (Hev i o r w) as (l1 & E1 & F1).
      destruct (ev i o r w) as [res w1]; simpl in E1; subst w1.
      destruct (IH res (logged l1 w)) as (l2 & E2 & F2).
      exists (l1 ++ l2)%list. rewrite E2, logged_logged.
      auto using callback_call_app.
    + apply IH.
Qed.

(** A plan that always returns does return, whatever the callbacks
    do: by induction on the derivation. *)
Lemma run_plan_returns tgt evs p :
  always_returns p ->
  forall w, exists r, fst (run_plan tgt evs p w) = Returns r.
Proof.
  induction 1 as [r|i k _ IH|n i o r k _ IH]; intros w; simpl.
  - by exists r.
  - destruct (tgt i w) as [res w1]. apply IH.
  - destruct (nth_error evs n) as [ev|]; [|apply IH].
    destruct (ev i o r w) as [res w1]. apply IH.
Qed.

Lemma evaluate_args_callbacks cb :
  forallb callback_call cb = true -> evaluate_args cb = [].
Proof.
  induction cb as [|c cb IH]; [done|]. simpl.
  intros [Hc Hcb]%andb_prop. unfold evaluate_args in *. simpl.
  rewrite (IH Hcb). by destruct c.
Qed.

Lemma dataset_names_callbacks cb :
  forallb callback_call cb = true -> dataset_names cb = [].
Proof.
  induction cb as [|c cb IH]; [done|]. simpl.
  intros [Hc Hcb]%andb_prop. unfold dataset_names in *. simpl.
  rewrite (IH Hcb). by destruct c.
Qed.

Lemma create_example_callbacks cb :
  forallb callback_call cb = true -> filter is_create_example cb = [].
Proof.
  induction cb as [|c cb IH]; [done|]. simpl.
  intros [Hc Hcb]%andb_prop. rewrite filter_cons, (IH Hcb).
  by destruct c.
Qed.

(** ** The run *)

(** A run that stops at one of the module's own calls. *)
Ltac stops_early g chat client dataset :=
  exists g, chat, client, dataset, [];
  repeat split; try done; left; by eexists.

Section Run.

Variable X : externals.

Lemma script_split w :
  script X w =
    (r <- experiment_results X ;;
     print2 "Evaluation completed. Results:" (ext_str X r)) w.
Proof.
  unfold script, experiment_results, bind.
  repeat case_match; simplify_eq; done.
Qed.

Lemma run_eq env :
  run X env =
    match experiment_results X (fresh env) with
    | (Returns r, w) =>
        (Returns tt,
         written ("Evaluation completed. Results:" ++ " " ++ ext_str X r
                  ++ newline) w)
    | (Raises e, w) => (Raises e, w)
    end.
Proof.
  unfold run. rewrite script_split. unfold bind. by repeat case_match.
Qed.

(** The seeding loop, unrolled over the two examples. *)
Lemma seed_eq c d w :
  seed X c d w =
    match
      ext_create_example X (calls w) c (Dataset_id d)
        kilimanjaro_inputs kilimanjaro_outputs
    with
    | Returns _ =>
        (ext_create_example X
           (calls w ++
              [CallCreateExample c (Dataset_id d)
                 kilimanjaro_inputs kilimanjaro_outputs])
           c (Dataset_id d) lowest_point_inputs lowest_point_outputs,
         logged (seeding_calls c d) w)
    | Raises e =>
        (Raises e,
         logged [CallCreateExample c (Dataset_id d)
                   kilimanjaro_inputs kilimanjaro_outputs] w)
    end.
Proof.
  unfold seed, examples, for_each, bind, create_example, perform.
  rewrite (getitem_Some _ "inputs" kilimanjaro_inputs) by reflexivity.
  rewrite (getitem_Some _ "outputs" kilimanjaro_outputs) by reflexivity.
  destruct (ext_create_example X (calls w) _ _ _ _) as [[]|e]; [|done].
  rewrite (getitem_Some _ "inputs" lowest_point_inputs) by reflexivity.
  rewrite (getitem_Some _ "outputs" lowest_point_outputs) by reflexivity.
  simpl. rewrite logged_logged.
  by destruct (ext_create_example X _ _ _ _ _) as [[]|e].
Qed.

(** The [evaluate] call logs itself, then callback calls only. *)
Lemma evaluate_callbacks c openai_client w :
  exists cb,
    forallb callback_call cb = true /\
    snd (evaluate X c Ref_target (target X openai_client)
           "ds-somber-trailer-42"
           [Ref_correctness_evaluator] [correctness_evaluator X]
           "experiment-quickstart-excellent-curiosity-99" 2 w) =
      logged
        (CallEvaluate c Ref_target "ds-somber-trailer-42"
           [Ref_correctness_evaluator]
           "experiment-quickstart-excellent-curiosity-99" 2 :: cb) w.
Proof.
  unfold evaluate, bind, perform.
  edestruct (run_plan_callback_only (target X openai_client)
               [correctness_evaluator X]) as (cb & E & F).
  - apply target_callback_only.
  - constructor; [|constructor]. apply correctness_evaluator_callback_only.
  - exists cb. split; [exact F|]. rewrite E, logged_logged. done.
Qed.

Lemma experiment_without_credentials env :
  credentials_set env = false ->
  experiment_results X (fresh env) =
    (Raises (ValueError (if truthy (env !! "LANGSMITH_API_KEY")
                         then google_message else langsmith_message)),
     set_environ (traced env) (fresh env)).
Proof.
  unfold credentials_set. intros H.
  unfold experiment_results, bind. rewrite bootstrap_eq. simpl.
  destruct (truthy (env !! "LANGSMITH_API_KEY")); [|done].
  simpl in H. by rewrite H.
Qed.

Lemma run_without_credentials env :
  credentials_set env = false ->
  run X env =
    (Raises (ValueError (if truthy (env !! "LANGSMITH_API_KEY")
                         then google_message else langsmith_message)),
     set_environ (traced env) (fresh env)).
Proof. intros H. rewrite run_eq, experiment_without_credentials; done. Qed.

(** With both credentials, the run goes through the module's calls in
    program order and stops at the first that raises. *)
Lemma experiment_shape env :
  credentials_set env = true ->
  well_shaped env (experiment_results X (fresh env)).
Proof.
  intros Hc. destruct (credentials_set_google _ Hc) as (g & Hg).
  unfold experiment_results, bind. rewrite bootstrap_eq.
  unfold credentials_set in Hc. apply andb_prop in Hc as [HL HG].
  simpl. rewrite HL, HG.
  unfold make_openai_client, bind, environ_getitem. simpl.
  rewrite traced_lookup_other by done. rewrite Hg.
  unfold ChatGoogleGenerativeAI, wrap_google_generative_ai, Client,
    create_dataset, perform. simpl.
  destruct (ext_ChatGoogleGenerativeAI X _ _ _) as [chat|e]; simpl;
    [|stops_early g 0%nat 0%nat {| Dataset_id := "" |}].
  destruct (ext_wrap X _ _) as [openai_client|e]; simpl;
    [|stops_early g chat 0%nat {| Dataset_id := "" |}].
  destruct (ext_Client X _) as [client|e]; simpl;
    [|stops_early g chat 0%nat {| Dataset_id := "" |}].
  destruct (ext_create_dataset X _ _ _ _) as [dataset|e]; simpl;
    [|stops_early g chat client {| Dataset_id := "" |}].
  rewrite seed_eq. simpl.
  destruct (ext_create_example X _ _ _ _ _) as [[]|e]; simpl;
    [|stops_early g chat client dataset].
  destruct (ext_create_example X _ _ _ _ _) as [[]|e]; simpl;
    [|stops_early g chat client dataset].
  match goal with
  | |- well_shaped _ (evaluate X _ _ _ _ _ _ _ _ ?w) =>
      destruct (evaluate_callbacks client openai_client w) as (cb & F & E)
  end.
  exists g, chat, client, dataset, cb.
  rewrite E. simpl. repeat split; try done.
  destruct (fst _); [done | by right].
Qed.

(** With both credentials and libraries that succeed, the run reaches
    the assignment of [experiment_results]. *)
Lemma experiment_returns env :
  credentials_set env = true -> all_calls_succeed X ->
  exists r, fst (experiment_results X (fresh env)) = Returns r.
Proof.
  intros Hc HX. destruct (credentials_set_google _ Hc) as (g & Hg).
  unfold experiment_results, bind. rewrite bootstrap_eq.
  unfold credentials_set in Hc. apply andb_prop in Hc as [HL HG].
  simpl. rewrite HL, HG.
  unfold make_openai_client, bind, environ_getitem. simpl.
  rewrite traced_lookup_other by done. rewrite Hg.
  unfold ChatGoogleGenerativeAI, wrap_google_generative_ai, Client,
    create_dataset, perform. simpl.
  destruct (chat_ok X HX [] g "gemini-1.5-flash") as [chat ->]. simpl.
  destruct (wrap_ok X HX
              [CallChatGoogleGenerativeAI g "gemini-1.5-flash"] chat)
    as [openai_client ->]. simpl.
  match goal with
  | |- context [ext_Client X ?h] =>
      destruct (client_ok X HX h) as [client ->]
  end. simpl.
  match goal with
  | |- context [ext_create_dataset X ?h ?c ?n ?d] =>
      destruct (dataset_ok X HX h c n d) as [dataset ->]
  end. simpl.
  rewrite seed_eq. rewrite !(example_ok X HX). simpl.
  unfold evaluate, bind, perform.
  apply run_plan_returns. apply (evaluate_ok X HX).
Qed.

End Run.

Lemma setup_calls_single api_key chat client dataset cb :
  forallb callback_call cb = true ->
  single_evaluate (setup_calls api_key chat client dataset ++ cb).
Proof.
  intros F. exists "ds-somber-trailer-42".
  unfold evaluate_args, dataset_names. rewrite !omap_app.
  fold (evaluate_args cb) (dataset_names cb).
  rewrite (evaluate_args_callbacks cb), (dataset_names_callbacks cb) by done.
  done.
Qed.

Lemma setup_calls_prefix api_key chat client dataset l :
  l `prefix_of` setup_calls api_key chat client dataset ->
  evaluate_args l = [] \/ single_evaluate l.
Proof.
  intros [n ->]%prefix_is_take.
  do 7 (destruct n as [|n]; [left; reflexivity|]).
  right. exists "ds-somber-trailer-42". simpl. by rewrite take_nil.
Qed.

Lemma setup_calls_examples api_key chat client dataset cb :
  forallb callback_call cb = true ->
  filter is_create_example
    (setup_calls api_key chat client dataset ++ cb)%list
  = seeding_calls client dataset.
Proof.
  intros F. rewrite filter_app, (create_example_callbacks cb) by done.
  by rewrite app_nil_r.
Qed.

(** The sample mocks all succeed. *)
Lemma mocks_succeed : all_calls_succeed Sample.mocks.
Proof.
  split; intros; try (eexists; reflexivity); try reflexivity.
  unfold Sample.mocks, Sample.one_example_plan; simpl.
  constructor. intros [outputs|e]; constructor. intros; constructor.
Qed.

(** * The claims *)

(** ** Credentials *)

(** C1. If [LANGSMITH_API_KEY] or [GOOGLE_API_KEY] is not set, the
    script fails with the error of a credential check, and it does so
    before any call into a library: the log of calls is empty (no chat
    client constructed, no dataset or example created, no [evaluate]
    call) and nothing is printed. *)
Theorem fails_before_any_call X env :
  env !! "LANGSMITH_API_KEY" = None \/ env !! "GOOGLE_API_KEY" = None ->
  exists msg,
    (msg = langsmith_message \/ msg = google_message) /\
    fst (run X env) = Raises (ValueError msg) /\
    calls (snd (run X env)) = [] /\
    stdout (snd (run X env)) = "".
Proof.
  intros H. rewrite run_without_credentials.
  - eexists. repeat split; try done. destruct (truthy _); auto.
  - apply credentials_unset_iff. unfold unset_or_empty. tauto.
Qed.

Lemma fails_before_any_call_witness :
  exists msg,
    (msg = langsmith_message \/ msg = google_message) /\
    fst (run Sample.mocks Sample.env_no_google) = Raises (ValueError msg) /\
    calls (snd (run Sample.mocks Sample.env_no_google)) = [] /\
    stdout (snd (run Sample.mocks Sample.env_no_google)) = "".
Proof.
  apply (fails_before_any_call Sample.mocks Sample.env_no_google).
  right. reflexivity.
Defined.

(** C5, as stated, fails: with [LANGSMITH_API_KEY] bound to the empty
    string and [GOOGLE_API_KEY] bound, neither variable is absent, and
    the credential check raises all the same. *)
Lemma empty_credential_is_not_absent :
  ~ ((exists msg,
        fst (bootstrap (fresh Sample.env_blank)) = Raises (ValueError msg))
     <->
     (Sample.env_blank !! "LANGSMITH_API_KEY" = None \/
      Sample.env_blank !! "GOOGLE_API_KEY" = None)).
Proof.
  intros [H _].
  destruct H as [H|H]; [|discriminate H|discriminate H].
  exists langsmith_message. reflexivity.
Qed.

(** C5, amended. The bootstrap raises the missing-credential error if
    and only if [LANGSMITH_API_KEY] or [GOOGLE_API_KEY] is absent from
    the environment or bound to the empty string.  The message names
    the variable whose check failed ([LANGSMITH_API_KEY] is checked
    first), and the error is fatal: it is the outcome of the whole run,
    which makes no call and prints nothing. *)
Theorem missing_credential_error X env :
  ((exists msg, fst (bootstrap (fresh env)) = Raises (ValueError msg)) <->
   unset_or_empty env "LANGSMITH_API_KEY" \/
   unset_or_empty env "GOOGLE_API_KEY") /\
  (unset_or_empty env "LANGSMITH_API_KEY" ->
   run X env =
     (Raises (ValueError langsmith_message),
      set_environ (traced env) (fresh env))) /\
  (~ unset_or_empty env "LANGSMITH_API_KEY" ->
   unset_or_empty env "GOOGLE_API_KEY" ->
   run X env =
     (Raises (ValueError google_message),
      set_environ (traced env) (fresh env))) /\
  String.index 0 "LANGSMITH_API_KEY" langsmith_message = Some 15%nat /\
  String.index 0 "GOOGLE_API_KEY" google_message = Some 15%nat.
Proof.
  split; [|split; [|split]].
  - rewrite bootstrap_raises_iff. apply credentials_unset_iff.
  - intros H. rewrite run_without_credentials.
    + apply truthy_false_iff in H. by rewrite H.
    + apply credentials_unset_iff. by left.
  - intros HL HG. rewrite run_without_credentials.
    + destruct (truthy (env !! "LANGSMITH_API_KEY")) eqn:E; [done|].
      by apply truthy_false_iff in E.
    + apply credentials_unset_iff. by right.
  - split; reflexivity.
Qed.

Lemma missing_credential_error_witness :
  run Sample.mocks Sample.env_blank =
    (Raises (ValueError langsmith_message),
     set_environ (traced Sample.env_blank) (fresh Sample.env_blank)) /\
  run Sample.mocks Sample.env_no_google =
    (Raises (ValueError google_message),
     set_environ (traced Sample.env_no_google)
       (fresh Sample.env_no_google)).
Proof.
  split.
  - apply (missing_credential_error Sample.mocks Sample.env_blank).
    right. reflexivity.
  - apply (missing_credential_error Sample.mocks Sample.env_no_google).
    + intros [H|H]; discriminate H.
    + left. reflexivity.
Defined.

(** C8. A credential bound to the empty string is treated as an absent
    one: if [LANGSMITH_API_KEY] or [GOOGLE_API_KEY] is [""], the run
    raises the missing-credential error without making any call, and
    its outcome is the outcome of the run in which that variable is
    removed from the environment. *)
Theorem empty_credential_is_missing X env :
  (env !! "LANGSMITH_API_KEY" = Some "" ->
   fst (run X env) = Raises (ValueError langsmith_message) /\
   fst (run X env) = fst (run X (delete "LANGSMITH_API_KEY" env)) /\
   calls (snd (run X env)) = []) /\
  (env !! "GOOGLE_API_KEY" = Some "" ->
   (exists msg,
      (msg = langsmith_message \/ msg = google_message) /\
      fst (run X env) = Raises (ValueError msg)) /\
   fst (run X env) = fst (run X (delete "GOOGLE_API_KEY" env)) /\
   calls (snd (run X env)) = []).
Proof.
  split; intros H.
  - rewrite !run_without_credentials.
    + rewrite H, lookup_delete_eq. done.
    + unfold credentials_set. by rewrite lookup_delete_eq.
    + unfold credentials_set. by rewrite H.
  - rewrite !run_without_credentials.
    + rewrite lookup_delete_ne by done. simpl.
      split; [|done]. eexists. split; [|done].
      destruct (truthy _); auto.
    + unfold credentials_set. rewrite lookup_delete_eq. apply andb_false_r.
    + unfold credentials_set. rewrite H. apply andb_false_r.
Qed.

Lemma empty_credential_is_missing_witness :
  (fst (run Sample.mocks Sample.env_blank) =
     Raises (ValueError langsmith_message) /\
   fst (run Sample.mocks Sample.env_blank) =
     fst (run Sample.mocks (delete "LANGSMITH_API_KEY" Sample.env_blank)) /\
   calls (snd (run Sample.mocks Sample.env_blank)) = []) /\
  ((exists msg,
      (msg = langsmith_message \/ msg = google_message) /\
      fst (run Sample.mocks Sample.env_blank_google) =
        Raises (ValueError msg)) /\
   fst (run Sample.mocks Sample.env_blank_google) =
     fst (run Sample.mocks
            (delete "GOOGLE_API_KEY" Sample.env_blank_google)) /\
   calls (snd (run Sample.mocks Sample.env_blank_google)) = []).
Proof.
  split.
  - apply (empty_credential_is_missing Sample.mocks Sample.env_blank).
    reflexivity.
  - apply (empty_credential_is_missing Sample.mocks Sample.env_blank_google).
    reflexivity.
Defined.

(** C9, as stated, fails: when the environment already holds both
    tracing settings and no credential, startup fails with the
    missing-credential error and leaves the environment as it was. *)
Lemma failure_can_leave_environment_unchanged :
  fst (run Sample.mocks Sample.env_traced) =
    Raises (ValueError langsmith_message) /\
  environ (snd (run Sample.mocks Sample.env_traced)) = Sample.env_traced.
Proof. split; reflexivity. Qed.

(** C9, amended. When startup fails with the missing-credential error,
    [LANGSMITH_TRACING] is ["true"] and [LANGSMITH_ENDPOINT] is
    ["https://api.smith.langchain.com"] in the environment that the
    failure leaves: both were written before either credential check,
    and nothing else was.  The failure leaves the environment as it
    found it exactly when both variables already had those values. *)
Theorem environment_mutated_before_checks X env msg :
  fst (bootstrap (fresh env)) = Raises (ValueError msg) ->
  fst (run X env) = Raises (ValueError msg) /\
  environ (snd (run X env)) = traced env /\
  environ (snd (run X env)) !! "LANGSMITH_TRACING" = Some "true" /\
  environ (snd (run X env)) !! "LANGSMITH_ENDPOINT" =
    Some "https://api.smith.langchain.com" /\
  (environ (snd (run X env)) = env <->
   env !! "LANGSMITH_TRACING" = Some "true" /\
   env !! "LANGSMITH_ENDPOINT" = Some "https://api.smith.langchain.com").
Proof.
  intros H.
  assert (Hc : credentials_set env = false).
  { apply bootstrap_raises_iff. eauto. }
  rewrite run_without_credentials by done.
  rewrite bootstrap_eq in H. simpl in H.
  unfold credentials_set in Hc.
  split.
  { destruct (truthy (env !! "LANGSMITH_API_KEY")); simpl in *; [|done].
    rewrite Hc in H. done. }
  simpl. split; [done|].
  split; [apply traced_tracing|].
  split; [apply traced_endpoint|].
  apply traced_id_iff.
Qed.

Lemma environment_mutated_before_checks_witness :
  fst (run Sample.mocks ∅) = Raises (ValueError langsmith_message) /\
  environ (snd (run Sample.mocks ∅)) = traced ∅ /\
  environ (snd (run Sample.mocks ∅)) !! "LANGSMITH_TRACING" = Some "true" /\
  environ (snd (run Sample.mocks ∅)) !! "LANGSMITH_ENDPOINT" =
    Some "https://api.smith.langchain.com" /\
  (environ (snd (run Sample.mocks ∅)) = ∅ <->
   (∅ : gmap string string) !! "LANGSMITH_TRACING" = Some "true" /\
   (∅ : gmap string string) !! "LANGSMITH_ENDPOINT" =
     Some "https://api.smith.langchain.com").
Proof.
  apply (environment_mutated_before_checks Sample.mocks ∅ langsmith_message).
  reflexivity.
Defined.

(** ** The target and the evaluator *)

(** C2. For every question [Q] and text [T]: if the chat client answers
    the two messages built from [Q] with a response whose content is
    [T], then [target({"question": Q})] returns exactly
    [{"answer": T}], and its only effect is that one call to the
    client. *)
Theorem target_returns_answer X c Q T w :
  ext_invoke X (calls w) c (chat_messages (VStr Q)) =
    Returns {| content := VStr T |} ->
  target X c {[ "question" := VStr Q ]} w =
    (Returns {[ "answer" := VStr T ]},
     logged [CallInvoke c (chat_messages (VStr Q))] w).
Proof.
  intros H. unfold target, bind, invoke, perform.
  rewrite (getitem_Some _ "question" (VStr Q)) by apply lookup_singleton_eq.
  fold (chat_messages (VStr Q)). by rewrite H.
Qed.

Lemma target_returns_answer_witness :
  target Sample.mocks 2%nat
    {[ "question" := VStr "What is Earth's lowest point?" ]} (fresh ∅) =
    (Returns {[ "answer" := VStr "The Dead Sea." ]},
     logged
       [CallInvoke 2%nat
          (chat_messages (VStr "What is Earth's lowest point?"))]
       (fresh ∅)).
Proof.
  apply (target_returns_answer Sample.mocks 2%nat
           "What is Earth's lowest point?" "The Dead Sea." (fresh ∅)).
  reflexivity.
Defined.

(** C10. For every [inputs] without the key ["question"], [target]
    raises [KeyError] for that key and leaves the world as it was: the
    chat client is not invoked. *)
Theorem target_without_question X c (inputs : dict) w :
  inputs !! "question" = None ->
  target X c inputs w = (Raises (KeyError "question"), w) /\
  filter is_invoke (calls (snd (target X c inputs w))) =
    filter is_invoke (calls w).
Proof.
  intros H. unfold target, bind, getitem. rewrite H. done.
Qed.

Lemma target_without_question_witness :
  target Sample.mocks 2%nat {[ "query" := VStr "lowest point?" ]} (fresh ∅) =
    (Raises (KeyError "question"), fresh ∅) /\
  filter is_invoke
    (calls (snd (target Sample.mocks 2%nat
                   {[ "query" := VStr "lowest point?" ]} (fresh ∅)))) =
    filter is_invoke (calls (fresh ∅)).
Proof.
  apply (target_without_question Sample.mocks 2%nat
           {[ "query" := VStr "lowest point?" ]} (fresh ∅)).
  reflexivity.
Defined.

(** C3. For every triple of dicts, once [create_llm_as_judge] has
    returned the grader, [correctness_evaluator] calls that grader once,
    with exactly the three dicts it was given, and its outcome is the
    grader's outcome, unchanged. *)
Theorem correctness_evaluator_pass_through X
    (inputs outputs reference_outputs : dict) w g :
  ext_create_llm_as_judge X (calls w) (CORRECTNESS_PROMPT X)
    "gemini-1.5-flash" "correctness" = Returns g ->
  correctness_evaluator X inputs outputs reference_outputs w =
    (ext_grader X
       (calls w ++
          [CallCreateLlmAsJudge (CORRECTNESS_PROMPT X) "gemini-1.5-flash"
             "correctness"])
       g inputs outputs reference_outputs,
     logged
       [CallCreateLlmAsJudge (CORRECTNESS_PROMPT X) "gemini-1.5-flash"
          "correctness";
        CallGrader g inputs outputs reference_outputs] w).
Proof.
  intros H. unfold correctness_evaluator, bind, create_llm_as_judge,
    call_grader, perform.
  rewrite H. simpl. rewrite logged_logged. simpl.
  by destruct (ext_grader X _ _ _ _ _).
Qed.

Lemma correctness_evaluator_pass_through_witness :
  correctness_evaluator Sample.mocks
    {[ "question" := VStr "q" ]} {[ "answer" := VStr "a" ]}
    {[ "answer" := VStr "b" ]} (fresh ∅) =
    (Returns (VInt 1),
     logged
       [CallCreateLlmAsJudge "Grade the answer." "gemini-1.5-flash"
          "correctness";
        CallGrader 4%nat {[ "question" := VStr "q" ]}
          {[ "answer" := VStr "a" ]} {[ "answer" := VStr "b" ]}] (fresh ∅)).
Proof.
  apply (correctness_evaluator_pass_through Sample.mocks
           {[ "question" := VStr "q" ]} {[ "answer" := VStr "a" ]}
           {[ "answer" := VStr "b" ]} (fresh ∅) 4%nat).
  reflexivity.
Defined.

(** ** Provisioning and evaluation *)

(** C6. The examples are the two literal fixtures, each a dict with an
    ["inputs"] and an ["outputs"] mapping.  The seeding loop calls
    [create_example] with them, in order, for the dataset's id, and with
    nothing else: the calls it makes are a prefix of the two fixture
    calls, and when [create_example] succeeds they are exactly those
    two.  In a run that completes, the [create_example] calls of the
    whole log are exactly those two. *)
Theorem seeding_appends_two_fixtures X c d w env :
  examples =
    [ {[ "inputs" := kilimanjaro_inputs; "outputs" := kilimanjaro_outputs ]};
      {[ "inputs" := lowest_point_inputs;
         "outputs" := lowest_point_outputs ]} ] /\
  (exists l,
     snd (seed X c d w) = logged l w /\ l `prefix_of` seeding_calls c d) /\
  ((forall h i o,
      ext_create_example X h c (Dataset_id d) i o = Returns tt) ->
   seed X c d w = (Returns tt, logged (seeding_calls c d) w)) /\
  (fst (run X env) = Returns tt ->
   exists client dataset,
     filter is_create_example (calls (snd (run X env))) =
       seeding_calls client dataset).
Proof.
  split; [reflexivity|]. rewrite seed_eq. split; [|split].
  - destruct (ext_create_example X _ _ _ _ _) as [[]|e]; simpl.
    + by exists (seeding_calls c d).
    + eexists. split; [done|]. by eexists [_].
  - intros H. by rewrite !H.
  - rewrite run_eq. destruct (credentials_set env) eqn:Hc.
    + destruct (experiment_shape X env Hc)
        as (k & chat & client & dataset & cb & _ & F & _ & _ & H).
      destruct (experiment_results X (fresh env)) as [[r|e] w']; [|done].
      simpl in *. intros _. exists client, dataset.
      rewrite H. by apply setup_calls_examples.
    + by rewrite experiment_without_credentials.
Qed.

Lemma seeding_appends_two_fixtures_witness :
  seed Sample.mocks 3%nat {| Dataset_id := "d-1" |} (fresh ∅) =
    (Returns tt,
     logged (seeding_calls 3%nat {| Dataset_id := "d-1" |}) (fresh ∅)) /\
  exists client dataset,
    filter is_create_example (calls (snd (run Sample.mocks Sample.env_ok))) =
      seeding_calls client dataset.
Proof.
  split.
  - apply (seeding_appends_two_fixtures Sample.mocks 3%nat
             {| Dataset_id := "d-1" |} (fresh ∅) Sample.env_ok).
    reflexivity.
  - apply (seeding_appends_two_fixtures Sample.mocks 3%nat
             {| Dataset_id := "d-1" |} (fresh ∅) Sample.env_ok).
    reflexivity.
Defined.

(** C4. In every run there is at most one [evaluate] call, and when
    there is one (in particular in every run that completes) its
    [max_concurrency] is 2 and its [data] is the dataset name that the
    run's one [create_dataset] call was given. *)
Theorem evaluate_call_arguments X env :
  (evaluate_args (calls (snd (run X env))) = [] \/
   single_evaluate (calls (snd (run X env)))) /\
  (fst (run X env) = Returns tt ->
   single_evaluate (calls (snd (run X env)))).
Proof.
  rewrite run_eq.
  destruct (credentials_set env) eqn:Hc.
  - destruct (experiment_shape X env Hc)
      as (k & chat & client & dataset & cb & _ & F & _ & _ & H).
    destruct (experiment_results X (fresh env)) as [[r|e] w]; simpl in *.
    + rewrite H. split; [right|intros _]; by apply setup_calls_single.
    + split; [|done]. destruct H as [H| ->].
      * by eapply setup_calls_prefix.
      * right. by apply setup_calls_single.
  - rewrite experiment_without_credentials by done. simpl.
    split; [by left | done].
Qed.

Lemma evaluate_call_arguments_witness :
  (evaluate_args (calls (snd (run Sample.mocks Sample.env_ok))) = [] \/
   single_evaluate (calls (snd (run Sample.mocks Sample.env_ok)))) /\
  single_evaluate (calls (snd (run Sample.mocks Sample.env_ok))).
Proof.
  split.
  - apply (evaluate_call_arguments Sample.mocks Sample.env_ok).
  - apply (evaluate_call_arguments Sample.mocks Sample.env_ok). reflexivity.
Defined.

(** C7, as stated, fails: with mocks that all succeed and an empty
    environment, the run stops at the first credential check and prints
    nothing. *)
Lemma prints_nothing_without_credentials :
  all_calls_succeed Sample.mocks /\
  fst (run Sample.mocks ∅) = Raises (ValueError langsmith_message) /\
  stdout (snd (run Sample.mocks ∅)) = "".
Proof. split; [apply mocks_succeed | split; reflexivity]. Qed.

(** C7, amended. When both credentials are bound to non-empty strings
    and every call into the libraries succeeds, the run completes and
    its whole standard output is one printed line: the literal
    ["Evaluation completed. Results:"], a space, the text of the summary
    object that [evaluate] returned, and the newline. *)
Theorem prints_one_line X env :
  credentials_set env = true -> all_calls_succeed X ->
  exists r,
    fst (experiment_results X (fresh env)) = Returns r /\
    fst (run X env) = Returns tt /\
    stdout (snd (run X env)) =
      "Evaluation completed. Results:" ++ " " ++ ext_str X r ++ newline.
Proof.
  intros Hc HX.
  destruct (experiment_returns X env Hc HX) as [r Hr].
  destruct (experiment_shape X env Hc)
    as (_ & _ & _ & _ & _ & _ & _ & _ & Hout & _).
  exists r. rewrite run_eq.
  destruct (experiment_results X (fresh env)) as [o w]; simpl in *.
  subst o. simpl. rewrite Hout. done.
Qed.

Lemma prints_one_line_witness :
  exists r,
    fst (experiment_results Sample.mocks (fresh Sample.env_ok)) = Returns r /\
    fst (run Sample.mocks Sample.env_ok) = Returns tt /\
    stdout (snd (run Sample.mocks Sample.env_ok)) =
      "Evaluation completed. Results:" ++ " "
      ++ ext_str Sample.mocks r ++ newline.
Proof.
  apply (prints_one_line Sample.mocks Sample.env_ok).
  - reflexivity.
  - apply mocks_succeed.
Defined.

(** * Further properties *)

(** ** Invariants of the platform's plan *)

(** Whatever the plan, a property of the world that each callback
    preserves is preserved by running the plan. *)
Lemma run_plan_invariant (I : world -> Prop) (tgt : dict -> M dict)
    (evs : list (dict -> dict -> dict -> M value)) p :
  (forall i w, I w -> I (snd (tgt i w))) ->
  Forall (fun ev => forall i o r w, I w -> I (snd (ev i o r w))) evs ->
  forall w, I w -> I (snd (run_plan tgt evs p w)).
Proof.
  intros Ht He. induction p as [r|i k IH|n i o r k IH]; intros w Hw; simpl.
  - done.
  - specialize (Ht i w Hw). destruct (tgt i w) as [res w1]. by apply IH.
  - destruct (nth_error evs n) as [ev|] eqn:En; [|by apply IH].
    apply nth_error_In, list_elem_of_In in En.
    rewrite Forall_forall in He. specialize (He ev En i o r w Hw).
    destruct (ev i o r w) as [res w1]. by apply IH.
Qed.

Lemma graders_fresh_no_grader X l :
  Forall (fun c => is_grader c = false) l -> graders_fresh X l.
Proof.
  intros H n g i o r Hn. rewrite Forall_lookup in H.
  specialize (H n _ Hn). discriminate H.
Qed.

Lemma graders_fresh_snoc X l c :
  graders_fresh X l -> is_grader c = false -> graders_fresh X (l ++ [c]).
Proof.
  intros H Hc n g i o r Hn.
  destruct (decide (n < length l)%nat) as [Hlt|Hge].
  - rewrite lookup_app_l in Hn by done.
    destruct (H n g i o r Hn) as (m & -> & Hm & Hg).
    exists m. split; [done|].
    rewrite lookup_app_l by lia. split; [done|].
    by rewrite take_app_le by lia.
  - rewrite lookup_app_r in Hn by lia.
    destruct (n - length l)%nat; simpl in Hn; [|done].
    injection Hn as ->. discriminate Hc.
Qed.

Lemma graders_fresh_judged X l g i o r :
  graders_fresh X l ->
  ext_create_llm_as_judge X l (CORRECTNESS_PROMPT X) "gemini-1.5-flash"
    "correctness" = Returns g ->
  graders_fresh X (l ++ [judge_call X; CallGrader g i o r]).
Proof.
  intros H Hg n g' i' o' r' Hn.
  destruct (decide (n < length l)%nat) as [Hlt|Hge].
  - rewrite lookup_app_l in Hn by done.
    destruct (H n g' i' o' r' Hn) as (m & -> & Hm & Hg').
    exists m. split; [done|].
    rewrite lookup_app_l by lia. split; [done|].
    by rewrite take_app_le by lia.
  - rewrite lookup_app_r in Hn by lia.
    destruct (n - length l)%nat as [|[|k]] eqn:Ek; simpl in Hn; try done.
    injection Hn as <- <- <- <-.
    exists (length l). split; [lia|].
    rewrite lookup_app_r by lia. rewrite Nat.sub_diag. split; [done|].
    by rewrite take_app_length.
Qed.

Section Facts.

Variable X : externals.
Variable env : gmap string string.
Variables (g : string) (chat oc client : obj) (dataset : Dataset).

Abbreviation inv := (facts_hold X env g chat oc client dataset).

Hypothesis all_established :
  established X env g chat oc client dataset 4.

Lemma target_keeps_facts inputs w : inv w -> inv (snd (target X oc inputs w)).
Proof.
  intros [Hok Hfr]. unfold target, bind, getitem.
  destruct (inputs !! "question") as [q|]; simpl; [|done].
  assert (inv (logged [CallInvoke oc (chat_messages q)] w)) as Hinv.
  { split; simpl.
    - apply Forall_app. split; [done|]. constructor; [|done].
      unfold call_ok. eauto.
    - by apply graders_fresh_snoc. }
  unfold invoke, perform. fold (chat_messages q).
  by destruct (ext_invoke X _ _ _).
Qed.

Lemma correctness_evaluator_keeps_facts i o r w :
  inv w -> inv (snd (correctness_evaluator X i o r w)).
Proof.
  intros [Hok Hfr]. unfold correctness_evaluator, bind, create_llm_as_judge,
    call_grader, perform.
  destruct (ext_create_llm_as_judge X _ _ _ _) as [gr|e] eqn:Eg; simpl.
  - assert (inv (logged [judge_call X; CallGrader gr i o r] w)) as Hinv.
    { split; simpl.
      - apply Forall_app. split; [done|]. by repeat constructor.
      - by apply graders_fresh_judged. }
    rewrite logged_logged.
    by destruct (ext_grader X _ _ _ _ _).
  - split; simpl.
    + apply Forall_app. split; [done|]. by repeat constructor.
    + by apply graders_fresh_snoc.
Qed.

Lemma run_plan_keeps_facts p w :
  inv w ->
  inv (snd (run_plan (target X oc) [correctness_evaluator X] p w)).
Proof.
  apply run_plan_invariant.
  - apply target_keeps_facts.
  - constructor; [|constructor]. apply correctness_evaluator_keeps_facts.
Qed.

End Facts.

(** A run that stops at one of the module's own calls: the log is an
    explicit list without grader calls. *)
Ltac stage_reached :=
  unfold established; simpl;
  repeat split; try done; try (intros; lia).

Ltac each_call_ok :=
  repeat (apply List.Forall_cons;
          [unfold call_ok; simpl; repeat split; try done; stage_reached|]);
  apply List.Forall_nil.

Ltac no_grader_call :=
  apply graders_fresh_no_grader;
  repeat (apply List.Forall_cons; [reflexivity|]); apply List.Forall_nil.

Ltac facts_at_stop g chat oc client dataset :=
  split;
  [ exists g, chat, oc, client, dataset; each_call_ok | no_grader_call ].

Lemma run_calls X env :
  calls (snd (run X env)) = calls (snd (experiment_results X (fresh env))).
Proof.
  rewrite run_eq. by destruct (experiment_results X (fresh env)) as [[r|e] w].
Qed.

(** The facts hold of the log of every run: by following the module
    statement by statement, and by the plan's invariant from the
    [evaluate] call on. *)
Lemma experiment_facts X env :
  log_facts X env (calls (snd (experiment_results X (fresh env)))).
Proof.
  destruct (credentials_set env) eqn:Hc.
  2:{ rewrite experiment_without_credentials by done. simpl.
      facts_at_stop "" 0%nat 0%nat 0%nat {| Dataset_id := "" |}. }
  destruct (credentials_set_google _ Hc) as (g & Hg).
  assert (Hne : g <> "").
  { unfold credentials_set in Hc. apply andb_prop in Hc as [_ HG].
    destruct (truthy_Some _ HG) as (s & Hs & Hn). congruence. }
  unfold experiment_results, bind. rewrite bootstrap_eq.
  unfold credentials_set in Hc. apply andb_prop in Hc as [HL HG].
  simpl. rewrite HL, HG.
  unfold make_openai_client, bind, environ_getitem. simpl.
  rewrite traced_lookup_other by done. rewrite Hg.
  unfold ChatGoogleGenerativeAI, wrap_google_generative_ai, Client,
    create_dataset, perform. simpl.
  destruct (ext_ChatGoogleGenerativeAI X _ _ _) as [chat|e] eqn:E1; simpl;
    [|facts_at_stop g 0%nat 0%nat 0%nat {| Dataset_id := "" |}].
  destruct (ext_wrap X _ _) as [oc|e] eqn:E2; simpl;
    [|facts_at_stop g chat 0%nat 0%nat {| Dataset_id := "" |}].
  destruct (ext_Client X _) as [client|e] eqn:E3; simpl;
    [|facts_at_stop g chat oc 0%nat {| Dataset_id := "" |}].
  destruct (ext_create_dataset X _ _ _ _) as [dataset|e] eqn:E4; simpl;
    [|facts_at_stop g chat oc client {| Dataset_id := "" |}].
  rewrite seed_eq. simpl.
  destruct (ext_create_example X _ _ _ _ _) as [[]|e]; simpl;
    [|facts_at_stop g chat oc client dataset].
  destruct (ext_create_example X _ _ _ _ _) as [[]|e]; simpl;
    [|facts_at_stop g chat oc client dataset].
  unfold evaluate, bind, perform. simpl.
  match goal with
  | |- log_facts _ _ (calls (snd (run_plan _ _ ?p ?w))) =>
      destruct (run_plan_keeps_facts X env g chat oc client dataset
                  ltac:(stage_reached) p w)
        as [Hok Hfr]; [split; [each_call_ok | no_grader_call]|]
  end.
  split; [by exists g, chat, oc, client, dataset | done].
Qed.

Lemma run_facts X env : log_facts X env (calls (snd (run X env))).
Proof. rewrite run_calls. apply experiment_facts. Qed.

(** ** The environment *)

(** X1. Whatever the libraries do and however the run ends, the
    environment it leaves is the initial one with the two tracing
    settings written: no other variable, the credentials included, is
    added, changed or removed. *)
Theorem environment_after_run X env :
  environ (snd (run X env)) = traced env /\
  (forall k, k <> "LANGSMITH_TRACING" -> k <> "LANGSMITH_ENDPOINT" ->
             environ (snd (run X env)) !! k = env !! k).
Proof.
  assert (E : environ (snd (run X env)) = traced env).
  { rewrite run_eq. destruct (credentials_set env) eqn:Hc.
    - destruct (experiment_shape X env Hc)
        as (_ & _ & _ & _ & _ & _ & _ & He & _).
      by destruct (experiment_results X (fresh env)) as [[r|e] w].
    - by rewrite experiment_without_credentials. }
  split; [done|]. intros k H1 H2. rewrite E. by apply traced_lookup_other.
Qed.

Lemma environment_after_run_witness :
  environ (snd (run Sample.mocks Sample.env_ok)) = traced Sample.env_ok /\
  environ (snd (run Sample.mocks Sample.env_ok)) !! "GOOGLE_API_KEY" =
    Sample.env_ok !! "GOOGLE_API_KEY".
Proof.
  split.
  - apply (environment_after_run Sample.mocks Sample.env_ok).
  - apply (environment_after_run Sample.mocks Sample.env_ok); discriminate.
Defined.

(** X2. The bootstrap is idempotent: run again from the world it left,
    it gives the same verdict and leaves that world as it is. *)
Theorem bootstrap_idempotent w :
  bootstrap (snd (bootstrap w)) = bootstrap w.
Proof.
  rewrite !bootstrap_eq. simpl.
  rewrite !traced_lookup_other by done.
  rewrite set_environ_twice.
  assert (traced (traced (environ w)) = traced (environ w)) as ->; [|done].
  apply traced_id_iff. by rewrite traced_tracing, traced_endpoint.
Qed.

(** ** Output and order *)



(** ** Where the arguments come from *)

(** X5. Every chat client constructed in a run is given the value of
    [GOOGLE_API_KEY] in the initial environment, which is not empty,
    and the model ["gemini-1.5-flash"]. *)
Theorem chat_client_uses_google_key X env n k m :
  calls (snd (run X env)) !! n = Some (CallChatGoogleGenerativeAI k m) ->
  env !! "GOOGLE_API_KEY" = Some k /\ k <> "" /\ m = "gemini-1.5-flash".
Proof.
  intros Hn.
  destruct (run_facts X env) as [(g & chat & oc & client & dataset & H) _].
  rewrite Forall_lookup in H. specialize (H n _ Hn). simpl in H.
  destruct H as (-> & -> & (Hg & Hne) & _). done.
Qed.

Lemma chat_client_uses_google_key_witness :
  Sample.env_ok !! "GOOGLE_API_KEY" = Some "g-key" /\
  "g-key" <> "" /\ "gemini-1.5-flash" = "gemini-1.5-flash".
Proof.
  apply (chat_client_uses_google_key Sample.mocks Sample.env_ok 0%nat
           "g-key" "gemini-1.5-flash").
  reflexivity.
Defined.

(** X6. Every chat invocation of a run goes to the traced client, that
    is, to the object that the wrapper returned for the chat client
    built from [GOOGLE_API_KEY], and carries exactly two messages: the
    fixed system instruction and one user message. *)
Theorem invocations_go_through_the_wrapper X env n c ms :
  calls (snd (run X env)) !! n = Some (CallInvoke c ms) ->
  (exists q, ms = chat_messages q) /\
  exists g chat,
    env !! "GOOGLE_API_KEY" = Some g /\
    ext_ChatGoogleGenerativeAI X [] g "gemini-1.5-flash" = Returns chat /\
    ext_wrap X [CallChatGoogleGenerativeAI g "gemini-1.5-flash"] chat
    = Returns c.
Proof.
  intros Hn.
  destruct (run_facts X env) as [(g & chat & oc & client & dataset & H) _].
  rewrite Forall_lookup in H. specialize (H n _ Hn). simpl in H.
  destruct H as (-> & Hq & (Hg & _) & H1 & H2 & _).
  split; [done|]. exists g, chat.
  split; [done|]. split; [apply H1 | apply H2]; lia.
Qed.

Lemma invocations_go_through_the_wrapper_witness :
  (exists q, chat_messages (VStr "What is Earth's lowest point?")
             = chat_messages q) /\
  exists g chat,
    Sample.env_ok !! "GOOGLE_API_KEY" = Some g /\
    ext_ChatGoogleGenerativeAI Sample.mocks [] g "gemini-1.5-flash"
    = Returns chat /\
    ext_wrap Sample.mocks [CallChatGoogleGenerativeAI g "gemini-1.5-flash"]
      chat = Returns 2%nat.
Proof.
  apply (invocations_go_through_the_wrapper Sample.mocks Sample.env_ok 7%nat
           2%nat (chat_messages (VStr "What is Earth's lowest point?"))).
  reflexivity.
Defined.

(** X7. Every [create_example] call of a run is made on the object that
    [Client()] returned, for the id of the dataset that [create_dataset]
    returned to that client for the script's dataset name. *)
Theorem examples_go_to_the_created_dataset X env n c i a b :
  calls (snd (run X env)) !! n = Some (CallCreateExample c i a b) ->
  exists g chat dataset,
    ext_Client X
      [CallChatGoogleGenerativeAI g "gemini-1.5-flash"; CallWrap chat]
    = Returns c /\
    ext_create_dataset X
      [CallChatGoogleGenerativeAI g "gemini-1.5-flash"; CallWrap chat;
       CallClient]
      c "ds-somber-trailer-42" "A sample dataset in LangSmith."
    = Returns dataset /\
    i = Dataset_id dataset.
Proof.
  intros Hn.
  destruct (run_facts X env) as [(g & chat & oc & client & dataset & H) _].
  rewrite Forall_lookup in H. specialize (H n _ Hn). simpl in H.
  destruct H as (-> & -> & _ & _ & _ & H3 & H4).
  exists g, chat, dataset.
  split; [apply H3; lia|]. split; [apply H4; lia | done].
Qed.

Lemma examples_go_to_the_created_dataset_witness :
  exists g chat dataset,
    ext_Client Sample.mocks
      [CallChatGoogleGenerativeAI g "gemini-1.5-flash"; CallWrap chat]
    = Returns 3%nat /\
    ext_create_dataset Sample.mocks
      [CallChatGoogleGenerativeAI g "gemini-1.5-flash"; CallWrap chat;
       CallClient]
      3%nat "ds-somber-trailer-42" "A sample dataset in LangSmith."
    = Returns dataset /\
    "d-1" = Dataset_id dataset.
Proof.
  apply (examples_go_to_the_created_dataset Sample.mocks Sample.env_ok 5%nat
           3%nat "d-1" lowest_point_inputs lowest_point_outputs).
  reflexivity.
Defined.

(** X8. Every [evaluate] call of a run is made on the client that
    created the dataset, after [create_dataset] returned, with [target]
    as the target, [correctness_evaluator] as the only evaluator and
    the script's experiment prefix. *)
Theorem evaluate_on_the_dataset_client X env n c t d evs p mc :
  calls (snd (run X env)) !! n = Some (CallEvaluate c t d evs p mc) ->
  t = Ref_target /\
  evs = [Ref_correctness_evaluator] /\
  p = "experiment-quickstart-excellent-curiosity-99" /\
  exists g chat dataset,
    ext_Client X
      [CallChatGoogleGenerativeAI g "gemini-1.5-flash"; CallWrap chat]
    = Returns c /\
    ext_create_dataset X
      [CallChatGoogleGenerativeAI g "gemini-1.5-flash"; CallWrap chat;
       CallClient]
      c "ds-somber-trailer-42" "A sample dataset in LangSmith."
    = Returns dataset.
Proof.
  intros Hn.
  destruct (run_facts X env) as [(g & chat & oc & client & dataset & H) _].
  rewrite Forall_lookup in H. specialize (H n _ Hn). simpl in H.
  destruct H as (-> & -> & -> & -> & _ & _ & _ & H3 & H4).
  repeat split. exists g, chat, dataset.
  split; [apply H3 | apply H4]; lia.
Qed.

Lemma evaluate_on_the_dataset_client_witness :
  Ref_target = Ref_target /\
  [Ref_correctness_evaluator] = [Ref_correctness_evaluator] /\
  "experiment-quickstart-excellent-curiosity-99" =
    "experiment-quickstart-excellent-curiosity-99" /\
  exists g chat dataset,
    ext_Client Sample.mocks
      [CallChatGoogleGenerativeAI g "gemini-1.5-flash"; CallWrap chat]
    = Returns 3%nat /\
    ext_create_dataset Sample.mocks
      [CallChatGoogleGenerativeAI g "gemini-1.5-flash"; CallWrap chat;
       CallClient]
      3%nat "ds-somber-trailer-42" "A sample dataset in LangSmith."
    = Returns dataset.
Proof.
  apply (evaluate_on_the_dataset_client Sample.mocks Sample.env_ok 6%nat
           3%nat Ref_target "ds-somber-trailer-42"
           [Ref_correctness_evaluator]
           "experiment-quickstart-excellent-curiosity-99" 2).
  reflexivity.
Defined.



(** ** The target and the seeding loop *)

(** X10. [target] depends on its inputs through ["question"] only: on
    two dicts that agree on that key (both lacking it included) it
    makes the same call and gives the same result. *)
Theorem target_reads_question_only X c (inputs1 inputs2 : dict) w :
  inputs1 !! "question" = inputs2 !! "question" ->
  target X c inputs1 w = target X c inputs2 w.
Proof.
  intros H. unfold target, bind, getitem. by rewrite H.
Qed.

Lemma target_reads_question_only_witness :
  target Sample.mocks 2%nat
    {[ "question" := VStr "lowest point?"; "hint" := VInt 7 ]} (fresh ∅) =
  target Sample.mocks 2%nat {[ "question" := VStr "lowest point?" ]}
    (fresh ∅).
Proof.
  apply (target_reads_question_only Sample.mocks 2%nat
           {[ "question" := VStr "lowest point?"; "hint" := VInt 7 ]}
           {[ "question" := VStr "lowest point?" ]} (fresh ∅)).
  reflexivity.
Defined.

(** X11. The seeding loop stops at the first failure and lets the
    exception through.  If the first [create_example] raises, the second
    example is never sent; if the first returns and the second raises,
    the loop raises after both calls, the first example staying in the
    dataset. *)
Theorem seeding_stops_at_first_failure X c d w e :
  (ext_create_example X (calls w) c (Dataset_id d)
     kilimanjaro_inputs kilimanjaro_outputs = Raises e ->
   seed X c d w =
     (Raises e,
      logged [CallCreateExample c (Dataset_id d)
                kilimanjaro_inputs kilimanjaro_outputs] w)) /\
  (ext_create_example X (calls w) c (Dataset_id d)
     kilimanjaro_inputs kilimanjaro_outputs = Returns tt ->
   ext_create_example X
     (calls w ++ [CallCreateExample c (Dataset_id d)
                    kilimanjaro_inputs kilimanjaro_outputs])
     c (Dataset_id d) lowest_point_inputs lowest_point_outputs = Raises e ->
   seed X c d w = (Raises e, logged (seeding_calls c d) w)).
Proof.
  rewrite seed_eq. split.
  - by intros ->.
  - by intros -> ->.
Qed.

Lemma seeding_stops_at_first_failure_witness :
  seed Faulty.no_examples 3%nat {| Dataset_id := "d-1" |} (fresh ∅) =
    (Raises (External "503"),
     logged [CallCreateExample 3%nat "d-1"
               kilimanjaro_inputs kilimanjaro_outputs] (fresh ∅)) /\
  seed Faulty.one_example_only 3%nat {| Dataset_id := "d-1" |} (fresh ∅) =
    (Raises (External "quota"),
     logged (seeding_calls 3%nat {| Dataset_id := "d-1" |}) (fresh ∅)).
Proof.
  split.
  - apply (seeding_stops_at_first_failure Faulty.no_examples 3%nat
             {| Dataset_id := "d-1" |} (fresh ∅) (External "503")).
    reflexivity.
  - apply (seeding_stops_at_first_failure Faulty.one_example_only 3%nat
             {| Dataset_id := "d-1" |} (fresh ∅) (External "quota"));
      reflexivity.
Defined.

(** ** Exceptions *)



